(** * tensorizer/_NumpyTensor.py: the torch <-> numpy dtype bridge

    A shallow embedding of the [_NumpyTensor] class and of the module-level
    tables it uses, together with the parts of Python, numpy and torch that
    the class calls into.

    Scope of the library models (they are models of external libraries,
    written from their documented behaviour, not code of this repository):
    - the host is little-endian, so numpy's native byte order prints as "<";
    - numpy dtype strings are the array-protocol type strings that
      [dtype.str] prints (optional byte-order character, kind character,
      item size in decimal), for the kinds bool, int, uint, float, complex
      and void; every other string is rejected by [numpy.dtype_of_str];
    - the torch dtypes are those of torch 2.1;
    - tensors and arrays are contiguous: a dtype, a shape and the bytes of
      the storage.  Devices and autograd are not modelled, so [cpu] and
      [detach] are identities. *)

From Stdlib Require Import ZArith NArith Ascii String List.
From Stdlib Require Import Decimal DecimalString DecimalN.
From stdpp Require Import base decidable countable option list strings gmap.

Local Open Scope Z_scope.

(* ================================================================= *)
(** ** Python: exceptions, results, strings *)

Inductive exception : Type :=
| ValueError (msg : string)
| TypeError (msg : string)
| AttributeError (msg : string)
| IndexError (msg : string)
| NotImplementedError (msg : string)
| RuntimeError (msg : string).

Inductive result (A : Type) : Type :=
| Return (a : A)
| Raise (e : exception).
Arguments Return {A} a.
Arguments Raise {A} e.

#[global] Instance result_ret : MRet result := @Return.
#[global] Instance result_bind : MBind result := λ A B f m,
  match m with
  | Return a => f a
  | Raise e => Raise e
  end.

Definition is_Return {A} (r : result A) : bool :=
  match r with Return _ => true | Raise _ => false end.

Definition option_of_result {A} (r : result A) : option A :=
  match r with Return a => Some a | Raise _ => None end.

(** [s.startswith(prefix)] *)
Fixpoint str_startswith (prefix s : string) : bool :=
  match prefix with
  | EmptyString => true
  | String a prefix' =>
      match s with
      | String b s' => Ascii.eqb a b && str_startswith prefix' s'
      | EmptyString => false
      end
  end.

(** [s[n:]] *)
Fixpoint str_drop (n : nat) (s : string) : string :=
  match n, s with
  | O, _ => s
  | S n', String _ s' => str_drop n' s'
  | S _, EmptyString => EmptyString
  end.

(** The scan of [str.replace]: [skip] counts the characters of the current
    match that are still to be consumed. *)
Fixpoint str_replace_from (old new : string) (skip : nat) (s : string) : string :=
  match s with
  | EmptyString => EmptyString
  | String a s' =>
      match skip with
      | S k => str_replace_from old new k s'
      | O =>
          if str_startswith old s
          then new +:+ str_replace_from old new (Nat.pred (String.length old)) s'
          else String a (str_replace_from old new O s')
      end
  end.

(** [s.replace(old, new)]: every non-overlapping occurrence of [old],
    leftmost first.  With an empty [old] Python puts [new] around every
    character. *)
Definition str_replace (old new s : string) : string :=
  match old with
  | EmptyString =>
      new +:+ String.concat new (map (λ a, String a EmptyString) (list_ascii_of_string s))
          +:+ (match s with EmptyString => EmptyString | _ => new end)
  | _ => str_replace_from old new O s
  end.

(** The first occurrence of [sep] in [s]: the text before and after it. *)
Fixpoint str_partition (sep s : string) : option (string * string) :=
  match s with
  | EmptyString => None
  | String a s' =>
      if str_startswith sep s then Some (EmptyString, str_drop (String.length sep) s)
      else match str_partition sep s' with
           | Some (before, after) => Some (String a before, after)
           | None => None
           end
  end.

(** [s.split(sep, 1)] for a non-empty [sep]. *)
Definition str_split1 (sep s : string) : list string :=
  match str_partition sep s with
  | Some (before, after) => [before; after]
  | None => [s]
  end.

(** Whether every character of [s] satisfies [P]. *)
Fixpoint str_forallb (P : ascii → bool) (s : string) : bool :=
  match s with
  | EmptyString => true
  | String a s' => P a && str_forallb P s'
  end.

(** [a.isdigit()] for an ASCII character. *)
Definition is_digit (a : ascii) : bool :=
  (48 <=? nat_of_ascii a)%nat && (nat_of_ascii a <=? 57)%nat.

(** [str(n)] for an [int]. *)
Definition str_of_int (n : Z) : string := NilZero.string_of_int (Z.to_int n).

(* ================================================================= *)
(** ** numpy: dtypes, dtype strings, arrays *)

Module numpy.

Inductive kind : Type := Kbool | Kint | Kuint | Kfloat | Kcomplex | Kvoid.

Inductive byteorder : Type := Little | Big | NotApplicable.

(** The host byte order. *)
Definition native : byteorder := Little.

Record dtype : Type := mk_dtype {
  dtype_kind : kind;
  itemsize : N;
  dtype_byteorder : byteorder
}.

(** The scalar type object [dtype.type]; [void] is the type of every
    raw-bytes dtype, whatever its width. *)
Inductive scalar_type : Type :=
| bool_
| signedinteger (bits : N)
| unsignedinteger (bits : N)
| floating (bits : N)
| complexfloating (bits : N)
| void.

Definition type (d : dtype) : scalar_type :=
  match dtype_kind d with
  | Kbool => bool_
  | Kint => signedinteger (8 * itemsize d)
  | Kuint => unsignedinteger (8 * itemsize d)
  | Kfloat => floating (8 * itemsize d)
  | Kcomplex => complexfloating (8 * itemsize d)
  | Kvoid => void
  end.

Definition kind_char (k : kind) : ascii :=
  match k with
  | Kbool => "b" | Kint => "i" | Kuint => "u"
  | Kfloat => "f" | Kcomplex => "c" | Kvoid => "V"
  end%char.

Definition kind_of_char (a : ascii) : option kind :=
  if Ascii.eqb a "b" then Some Kbool
  else if Ascii.eqb a "i" then Some Kint
  else if Ascii.eqb a "u" then Some Kuint
  else if Ascii.eqb a "f" then Some Kfloat
  else if Ascii.eqb a "c" then Some Kcomplex
  else if Ascii.eqb a "V" then Some Kvoid
  else None.

Definition byteorder_char (o : byteorder) : ascii :=
  match o with Little => "<" | Big => ">" | NotApplicable => "|" end%char.

(** The byte-order prefix of a type string; "=" is the native order. *)
Definition byteorder_of_char (a : ascii) : option byteorder :=
  if Ascii.eqb a "<" then Some Little
  else if Ascii.eqb a ">" then Some Big
  else if Ascii.eqb a "|" then Some NotApplicable
  else if Ascii.eqb a "=" then Some native
  else None.

(** The item sizes numpy has for each kind. *)
Definition valid_itemsize (k : kind) (n : N) : bool :=
  match k with
  | Kbool => bool_decide (n = 1%N)
  | Kint | Kuint => bool_decide (n ∈ [1; 2; 4; 8]%N)
  | Kfloat => bool_decide (n ∈ [2; 4; 8; 16]%N)
  | Kcomplex => bool_decide (n ∈ [8; 16; 32]%N)
  | Kvoid => true
  end.

(** Byte order is not applicable to one-byte items and to raw bytes;
    elsewhere "|" is read as the native order. *)
Definition normal_byteorder (k : kind) (n : N) (o : byteorder) : byteorder :=
  match k with
  | Kvoid => NotApplicable
  | _ => if (n <=? 1)%N then NotApplicable
         else match o with NotApplicable => native | _ => o end
  end.

Definition make (k : kind) (n : N) (o : byteorder) : dtype :=
  mk_dtype k n (normal_byteorder k n o).

Definition str_of_N (n : N) : string := NilZero.string_of_uint (N.to_uint n).

(** [dtype.str] *)
Definition str (d : dtype) : string :=
  String (byteorder_char (dtype_byteorder d))
    (String (kind_char (dtype_kind d)) (str_of_N (itemsize d))).

(** [dtype.name] *)
Definition name (d : dtype) : string :=
  match dtype_kind d with
  | Kbool => "bool"
  | Kint => "int" +:+ str_of_N (8 * itemsize d)
  | Kuint => "uint" +:+ str_of_N (8 * itemsize d)
  | Kfloat => "float" +:+ str_of_N (8 * itemsize d)
  | Kcomplex => "complex" +:+ str_of_N (8 * itemsize d)
  | Kvoid => if (itemsize d =? 0)%N then "void"
             else "void" +:+ str_of_N (8 * itemsize d)
  end.

Definition not_understood {A} (s : string) : result A :=
  Raise (TypeError ("data type '" +:+ s +:+ "' not understood")).

(** The kind character and the item size that follow the byte order. *)
Definition parse_kind_size (o : byteorder) (whole rest : string) : result dtype :=
  match rest with
  | String k digits =>
      match kind_of_char k, NilZero.uint_of_string digits with
      | Some kd, Some u =>
          if valid_itemsize kd (N.of_uint u)
          then Return (make kd (N.of_uint u) o)
          else not_understood whole
      | _, _ => not_understood whole
      end
  | EmptyString => not_understood whole
  end.

(** [numpy.dtype(s)] for a type string [s]. *)
Definition dtype_of_str (s : string) : result dtype :=
  match s with
  | String a rest =>
      match byteorder_of_char a with
      | Some o => parse_kind_size o s rest
      | None => parse_kind_size native s s
      end
  | EmptyString => not_understood s
  end.

Record ndarray : Type := mk_ndarray {
  ndarray_dtype : dtype;
  shape : list Z;
  buffer : list Byte.byte
}.

(** [numpy.empty(shape, dtype=d)]; the contents are unspecified, here
    zero bytes. *)
Definition empty (shp : list Z) (d : dtype) : ndarray :=
  mk_ndarray d shp
    (replicate (Z.to_nat (foldr Z.mul 1 shp) * N.to_nat (itemsize d)) Byte.x00).

(** [numpy.ndarray.__new__(subtype, shape, dtype=d, buffer=buf,
    offset=offset)]: an array over the bytes of [buf] that start at
    [offset]. *)
Definition ndarray_new (shp : list Z) (d : dtype) (buf : list Byte.byte)
    (offset : Z) : result ndarray :=
  let nbytes := foldr Z.mul 1 shp * Z.of_N (itemsize d) in
  if existsb (λ n, n <? 0) shp
  then Raise (ValueError "negative dimensions are not allowed")
  else if (offset <? 0) || (Z.of_nat (length buf) <? offset)
  then Raise (ValueError
         ("offset must be non-negative and no greater than buffer length ("
            +:+ str_of_int (Z.of_nat (length buf)) +:+ ")"))
  else if Z.of_nat (length buf) - offset <? nbytes
  then Raise (TypeError "buffer is too small for requested array")
  else Return (mk_ndarray d shp
                 (take (Z.to_nat nbytes) (drop (Z.to_nat offset) buf))).

#[global] Instance scalar_type_eq_dec : EqDecision scalar_type.
Proof. solve_decision. Defined.

End numpy.

(* ================================================================= *)
(** ** torch: dtypes, the module namespace, tensors *)

Module torch.

Inductive dtype : Type :=
| uint8 | int8 | int16 | int32 | int64
| float16 | float32 | float64 | bfloat16
| complex32 | complex64 | complex128
| bool
| qint8 | quint8 | qint32 | quint4x2 | quint2x4
| bits1x8 | bits2x4 | bits4x2 | bits8 | bits16
| float8_e5m2 | float8_e4m3fn.

Definition all_dtypes : list dtype :=
  [ uint8; int8; int16; int32; int64;
    float16; float32; float64; bfloat16;
    complex32; complex64; complex128;
    bool;
    qint8; quint8; qint32; quint4x2; quint2x4;
    bits1x8; bits2x4; bits4x2; bits8; bits16;
    float8_e5m2; float8_e4m3fn ].

#[global] Instance dtype_eq_dec : EqDecision dtype.
Proof. solve_decision. Defined.

Definition dtype_index (d : dtype) : nat :=
  match d with
  | uint8 => 0 | int8 => 1 | int16 => 2 | int32 => 3 | int64 => 4
  | float16 => 5 | float32 => 6 | float64 => 7 | bfloat16 => 8
  | complex32 => 9 | complex64 => 10 | complex128 => 11
  | bool => 12
  | qint8 => 13 | quint8 => 14 | qint32 => 15 | quint4x2 => 16 | quint2x4 => 17
  | bits1x8 => 18 | bits2x4 => 19 | bits4x2 => 20 | bits8 => 21 | bits16 => 22
  | float8_e5m2 => 23 | float8_e4m3fn => 24
  end%nat.

#[global] Instance dtype_countable : Countable dtype.
Proof.
  refine (inj_countable dtype_index (λ n, all_dtypes !! n) _).
  intros d. destruct d; reflexivity.
Defined.

(** The attribute name of a dtype in the [torch] module. *)
Definition dtype_name (d : dtype) : string :=
  match d with
  | uint8 => "uint8" | int8 => "int8" | int16 => "int16"
  | int32 => "int32" | int64 => "int64"
  | float16 => "float16" | float32 => "float32" | float64 => "float64"
  | bfloat16 => "bfloat16"
  | complex32 => "complex32" | complex64 => "complex64"
  | complex128 => "complex128"
  | bool => "bool"
  | qint8 => "qint8" | quint8 => "quint8" | qint32 => "qint32"
  | quint4x2 => "quint4x2" | quint2x4 => "quint2x4"
  | bits1x8 => "bits1x8" | bits2x4 => "bits2x4" | bits4x2 => "bits4x2"
  | bits8 => "bits8" | bits16 => "bits16"
  | float8_e5m2 => "float8_e5m2" | float8_e4m3fn => "float8_e4m3fn"
  end.

(** [str(d)], e.g. "torch.bfloat16". *)
Definition str (d : dtype) : string := "torch." +:+ dtype_name d.

(** The name of the underlying ScalarType, as torch's messages print it. *)
Definition scalar_type_name (d : dtype) : string :=
  match d with
  | uint8 => "Byte" | int8 => "Char" | int16 => "Short"
  | int32 => "Int" | int64 => "Long"
  | float16 => "Half" | float32 => "Float" | float64 => "Double"
  | bfloat16 => "BFloat16"
  | complex32 => "ComplexHalf" | complex64 => "ComplexFloat"
  | complex128 => "ComplexDouble"
  | bool => "Bool"
  | qint8 => "QInt8" | quint8 => "QUInt8" | qint32 => "QInt32"
  | quint4x2 => "QUInt4x2" | quint2x4 => "QUInt2x4"
  | bits1x8 => "Bits1x8" | bits2x4 => "Bits2x4" | bits4x2 => "Bits4x2"
  | bits8 => "Bits8" | bits16 => "Bits16"
  | float8_e5m2 => "Float8_e5m2" | float8_e4m3fn => "Float8_e4m3fn"
  end.

(** [d.itemsize], the element size in bytes. *)
Definition dtype_itemsize (d : dtype) : Z :=
  match d with
  | uint8 | int8 | bool | qint8 | quint8 | quint4x2 | quint2x4
  | bits1x8 | bits2x4 | bits4x2 | bits8
  | float8_e5m2 | float8_e4m3fn => 1
  | int16 | float16 | bfloat16 | bits16 => 2
  | int32 | float32 | complex32 | qint32 => 4
  | int64 | float64 | complex64 => 8
  | complex128 => 16
  end.

(** The Python values that an attribute of the module, or the
    [torch_dtype] field of the class, can hold. *)
Inductive object : Type :=
| None_
| Str (s : string)
| Dtype (d : dtype)
| Other (repr : string).

(** Truth value of an object ([None] and the empty string are false). *)
Definition truthy (o : object) : Datatypes.bool :=
  match o with
  | None_ => false
  | Str s => negb (String.eqb s "")
  | Dtype _ | Other _ => true
  end.

(** [str(o)], as an f-string prints it. *)
Definition str_of_object (o : object) : string :=
  match o with
  | None_ => "None"
  | Str s => s
  | Dtype d => str d
  | Other r => r
  end.

(** The older alias names of the dtypes. *)
Definition dtype_aliases : list (string * dtype) :=
  [ ("float", float32); ("double", float64); ("half", float16);
    ("short", int16); ("int", int32); ("long", int64);
    ("cfloat", complex64); ("cdouble", complex128); ("chalf", complex32) ].

(** An excerpt of the attributes of the module that are not dtypes. *)
Definition other_attributes : list (string * object) :=
  [ ("Tensor", Other "<class 'torch.Tensor'>");
    ("dtype", Other "<class 'torch.dtype'>");
    ("nn", Other "<module 'torch.nn'>");
    ("tensor", Other "<built-in method tensor of type object>");
    ("from_numpy", Other "<built-in method from_numpy of type object>");
    ("__name__", Str "torch") ].

(** The attributes of the [torch] module. *)
Definition namespace : gmap string object :=
  list_to_map
    (((λ d, (dtype_name d, Dtype d)) <$> all_dtypes)
       ++ (prod_map id Dtype <$> dtype_aliases)
       ++ other_attributes).

(** [hasattr(torch, name)] *)
Definition hasattr (name : string) : Datatypes.bool :=
  bool_decide (is_Some (namespace !! name)).

(** [getattr(torch, name)], with no default. *)
Definition getattr (name : string) : result object :=
  match namespace !! name with
  | Some o => Return o
  | None =>
      Raise (AttributeError ("module 'torch' has no attribute '" +:+ name +:+ "'"))
  end.

Record Tensor : Type := mk_Tensor {
  tensor_dtype : dtype;
  size : list Z;
  storage : list Byte.byte
}.

Definition element_size (t : Tensor) : Z := dtype_itemsize (tensor_dtype t).

Definition cpu (t : Tensor) : Tensor := t.
Definition detach (t : Tensor) : Tensor := t.

(** The numpy dtype of [tensor.numpy()], where torch has one. *)
Definition numpy_dtype_of (d : dtype) : option numpy.dtype :=
  match d with
  | float64 => Some (numpy.make numpy.Kfloat 8 numpy.native)
  | float32 => Some (numpy.make numpy.Kfloat 4 numpy.native)
  | float16 => Some (numpy.make numpy.Kfloat 2 numpy.native)
  | complex64 => Some (numpy.make numpy.Kcomplex 8 numpy.native)
  | complex128 => Some (numpy.make numpy.Kcomplex 16 numpy.native)
  | int64 => Some (numpy.make numpy.Kint 8 numpy.native)
  | int32 => Some (numpy.make numpy.Kint 4 numpy.native)
  | int16 => Some (numpy.make numpy.Kint 2 numpy.native)
  | int8 => Some (numpy.make numpy.Kint 1 numpy.native)
  | uint8 => Some (numpy.make numpy.Kuint 1 numpy.native)
  | bool => Some (numpy.make numpy.Kbool 1 numpy.native)
  | _ => None
  end.

(** [tensor.numpy()]: an array over the same bytes, or [TypeError] when
    the dtype has no numpy counterpart. *)
Definition numpy (t : Tensor) : result numpy.ndarray :=
  match numpy_dtype_of (tensor_dtype t) with
  | Some nd => Return (numpy.mk_ndarray nd (size t) (storage t))
  | None =>
      Raise (TypeError ("Got unsupported ScalarType "
                          +:+ scalar_type_name (tensor_dtype t)))
  end.

(** The torch dtype of a numpy dtype, for [torch.from_numpy]. *)
Definition dtype_of_numpy (nd : numpy.dtype) : option dtype :=
  match numpy.dtype_kind nd, numpy.itemsize nd with
  | numpy.Kfloat, 8%N => Some float64
  | numpy.Kfloat, 4%N => Some float32
  | numpy.Kfloat, 2%N => Some float16
  | numpy.Kcomplex, 8%N => Some complex64
  | numpy.Kcomplex, 16%N => Some complex128
  | numpy.Kint, 8%N => Some int64
  | numpy.Kint, 4%N => Some int32
  | numpy.Kint, 2%N => Some int16
  | numpy.Kint, 1%N => Some int8
  | numpy.Kuint, 1%N => Some uint8
  | numpy.Kbool, 1%N => Some bool
  | _, _ => None
  end.

(** [torch.from_numpy(arr)]: a tensor over the same bytes. *)
Definition from_numpy (arr : numpy.ndarray) : result Tensor :=
  match numpy.dtype_byteorder (numpy.ndarray_dtype arr) with
  | numpy.Big =>
      Raise (ValueError
        "given numpy array has byte order different from the native byte order. Conversion between byte orders is currently not supported.")
  | _ =>
      match dtype_of_numpy (numpy.ndarray_dtype arr) with
      | Some d => Return (mk_Tensor d (numpy.shape arr) (numpy.buffer arr))
      | None =>
          Raise (TypeError
            ("can't convert np.ndarray of type numpy."
               +:+ numpy.name (numpy.ndarray_dtype arr)
               +:+ ". The only supported types are: float64, float32, float16, complex64, complex128, int64, int32, int16, int8, uint8, and bool."))
      end
  end.

Definition view_error (t : Tensor) (d : dtype) (what : string) : exception :=
  RuntimeError (what +:+ " to view " +:+ scalar_type_name (tensor_dtype t)
                  +:+ " as " +:+ scalar_type_name d
                  +:+ " (different element sizes)").

(** [tensor.view(d)]: the same bytes read as elements of dtype [d].  With
    equal element sizes only the dtype changes; otherwise the last
    dimension is scaled by the ratio of the sizes. *)
Definition view (t : Tensor) (d : dtype) : result Tensor :=
  let old := dtype_itemsize (tensor_dtype t) in
  let new := dtype_itemsize d in
  if old =? new then Return (mk_Tensor d (size t) (storage t))
  else
    match reverse (size t) with
    | [] => Raise (view_error t d "self.dim() cannot be 0")
    | last :: front =>
        if new <? old
        then Return (mk_Tensor d (reverse front ++ [last * (old / new)]) (storage t))
        else if last mod (new / old) =? 0
        then Return (mk_Tensor d (reverse front ++ [last / (new / old)]) (storage t))
        else Raise (view_error t d
                      ("self.size(-1) must be divisible by " +:+ str_of_int (new / old)))
    end.

End torch.

(* ================================================================= *)
(** ** The module-level tables *)

Definition _INTERMEDIATE_MAPPING : gmap Z torch.dtype :=
  {[ 1 := torch.int8; 2 := torch.int16; 4 := torch.int32; 8 := torch.int64 ]}.

(** [{getattr(torch, t) for t in names if hasattr(torch, t)}].  Every name
    the module lists is the name of a dtype wherever torch has it, so the
    set is kept as a set of dtypes. *)
Definition torch_dtypes_named (names : list string) : gset torch.dtype :=
  list_to_set
    (omap (λ t, if torch.hasattr t
                then match torch.getattr t with
                     | Return (torch.Dtype d) => Some d
                     | _ => None
                     end
                else None) names).

(** torch types with no numpy equivalents, i.e. the only ones that need
    to be opaque. *)
Definition _ASYMMETRIC_TYPES : gset torch.dtype :=
  torch_dtypes_named
    [ "bfloat16"; "quint8"; "qint8"; "qint32"; "quint4x2"; "quint2x4";
      "complex32" ].

(** Types that are not supported yet because they need supplemental
    quantization parameters to deserialize correctly. *)
Definition _UNSUPPORTED_TYPES : gset torch.dtype :=
  torch_dtypes_named
    [ "quint8"; "qint8"; "qint32"; "quint4x2"; "quint2x4" ].

(** [{str(t): t for t in _ASYMMETRIC_TYPES}] *)
Definition _DECODE_MAPPING : gmap string torch.dtype :=
  list_to_map ((λ t, (torch.str t, t)) <$> elements _ASYMMETRIC_TYPES).

(** [d.get(key)] on a dict with string keys: an object that is not a
    string equals no key. *)
Definition dict_get {V} (d : gmap string V) (key : torch.object) : option V :=
  match key with
  | torch.Str s => d !! s
  | _ => None
  end.

(* ================================================================= *)
(** ** class _NumpyTensor(NamedTuple) *)

Record _NumpyTensor : Type := cls {
  data : numpy.ndarray;
  numpy_dtype : string;
  torch_dtype : torch.object
}.

(** [_is_opaque]: whether the encoded dtype is in the opaque format. *)
Definition _is_opaque (numpy_dtype : string) : result bool :=
  d ← numpy.dtype_of_str numpy_dtype;
  mret (bool_decide (numpy.type d = numpy.void)).

(** The [is_opaque] property. *)
Definition is_opaque (self : _NumpyTensor) : result bool :=
  _is_opaque (numpy_dtype self).

Definition _is_asymmetric (torch_dtype : torch.dtype) : bool :=
  bool_decide (torch_dtype ∈ _ASYMMETRIC_TYPES).

(** [_intermediate_type]: a dtype to masquerade as that torch can convert
    to a numpy array. *)
Definition _intermediate_type (size : Z) : result torch.dtype :=
  match _INTERMEDIATE_MAPPING !! size with
  | Some d => Return d
  | None =>
      Raise (ValueError
        ("Cannot create a numpy array with opaque elements of size "
           +:+ str_of_int size +:+ " bytes"))
  end.

(** [_decoder_dtype]: an opaque storage dtype turned into one that numpy
    can decode. *)
Definition _decoder_dtype (numpy_dtype : string) : result string :=
  opaque ← _is_opaque numpy_dtype;
  if (opaque : bool) then Return (str_replace "V" "i" numpy_dtype)
  else Return numpy_dtype.

Definition invalid_torch_dtype {A} (torch_dtype : torch.object) : result A :=
  Raise (ValueError ("Invalid torch_dtype: " +:+ torch.str_of_object torch_dtype)).

(** [_decode_torch_dtype]: parses the [torch_dtype] field. *)
Definition _decode_torch_dtype (self : _NumpyTensor) : result torch.dtype :=
  (* Quick route, table lookup for common types *)
  match dict_get _DECODE_MAPPING (torch_dtype self) with
  | Some dtype => Return dtype
  | None =>
      (* Long route using getattr(), any other type *)
      if negb (torch.truthy (torch_dtype self))
      then Raise (ValueError "Cannot decode an empty dtype.")
      else
        match torch_dtype self with
        | torch.Str s =>
            match str_split1 "." s with
            | module :: dtype_name =>
                (* Ensure that it's actually "torch.something" *)
                if negb (String.eqb module "torch")
                   || negb (length dtype_name =? 1)%nat
                then invalid_torch_dtype (torch_dtype self)
                else
                  match dtype_name !! 0%nat with
                  | Some name =>
                      dtype ← torch.getattr name;
                      (* Ensure that it's a real dtype *)
                      match dtype with
                      | torch.Dtype d => Return d
                      | _ => invalid_torch_dtype (torch_dtype self)
                      end
                  | None => Raise (IndexError "list index out of range")
                  end
            | [] =>
                Raise (ValueError
                  "not enough values to unpack (expected at least 1, got 0)")
            end
        | _ => Raise (TypeError "torch_dtype must be a string.")
        end
  end.

(** [from_buffer]: decodes a raw byte buffer given its numpy dtype, its
    torch dtype and its shape. *)
Definition from_buffer (numpy_dtype : string) (torch_dtype : torch.object)
    (shape_list : list Z) (buffer : list Byte.byte) (offset : Z)
    : result _NumpyTensor :=
  dtype_str ← _decoder_dtype numpy_dtype;
  dtype ← numpy.dtype_of_str dtype_str;
  data ← numpy.ndarray_new shape_list dtype buffer offset;
  Return (cls data numpy_dtype torch_dtype).

(** The last block of [from_tensor]: replace the dtype with some variety
    of int and mark as opaque data. *)
Definition from_tensor_opaque (torch_dtype : string) (tensor : torch.Tensor)
    : result _NumpyTensor :=
  let size := torch.element_size tensor in
  intermediate ← _intermediate_type size;
  viewed ← torch.view tensor intermediate;
  arr ← torch.numpy viewed;
  let numpy_dtype := str_replace "i" "V" (numpy.str (numpy.ndarray_dtype arr)) in
  Return (cls arr numpy_dtype (torch.Str torch_dtype)).

(** [from_tensor]: converts a torch tensor into a [_NumpyTensor]. *)
Definition from_tensor (tensor : torch.Tensor) : result _NumpyTensor :=
  if bool_decide (torch.tensor_dtype tensor ∈ _UNSUPPORTED_TYPES)
  then Raise (NotImplementedError
         ("Serialization for " +:+ torch.str (torch.tensor_dtype tensor)
            +:+ " is not implemented."))
  else
    let torch_dtype := torch.str (torch.tensor_dtype tensor) in
    let tensor := torch.detach (torch.cpu tensor) in
    if negb (_is_asymmetric (torch.tensor_dtype tensor))
    then
      match torch.numpy tensor with
      | Return arr =>
          let numpy_dtype := numpy.str (numpy.ndarray_dtype arr) in
          Return (cls arr numpy_dtype (torch.Str torch_dtype))
      | Raise (TypeError _) =>
          (* Not a known asymmetric type, but torch can't convert it
             so fall back to storing it as opaque data *)
          from_tensor_opaque torch_dtype tensor
      | Raise e => Raise e
      end
    else from_tensor_opaque torch_dtype tensor.

(** [from_array]: converts a numpy array into a [_NumpyTensor], leaving
    the data as it is. *)
Definition from_array (arr : numpy.ndarray) : result _NumpyTensor :=
  let probe :=
    let test_array := numpy.empty [] (numpy.ndarray_dtype arr) in
    t ← torch.from_numpy test_array;
    mret (torch.tensor_dtype t) in
  match probe with
  | Return torch_dtype =>
      Return (cls arr (numpy.str (numpy.ndarray_dtype arr))
                (torch.Dtype torch_dtype))
  | Raise (TypeError _) =>
      Raise (TypeError
        ("Cannot serialize an array with dtype "
           +:+ numpy.name (numpy.ndarray_dtype arr) +:+ " as a _NumpyTensor."))
  | Raise e => Raise e
  end.

(** [to_tensor]: converts a [_NumpyTensor] to a tensor and reifies any
    opaque data into the correct torch dtype. *)
Definition to_tensor (self : _NumpyTensor) : result torch.Tensor :=
  opaque ← is_opaque self;
  if negb opaque then torch.from_numpy (data self)
  else
    if negb (torch.truthy (torch_dtype self))
    then Raise (ValueError
           "Tried to decode a tensor stored as opaque data, but no torch dtype was specified")
    else
      tensor_view ← torch.from_numpy (data self);
      dtype ← _decode_torch_dtype self;
      torch.view tensor_view dtype.

(* ================================================================= *)
(** ** The error kinds of the specification

    The class raises Python's built-in exceptions; the kinds the
    specification names are told apart by exception class and message. *)

(** [UnsupportedDtype]: serialization of the dtype is not implemented. *)
Definition is_UnsupportedDtype (e : exception) : bool :=
  match e with NotImplementedError _ => true | _ => false end.

(** [UnrepresentableWidth]: no integer dtype of that element size. *)
Definition is_UnrepresentableWidth (e : exception) : bool :=
  match e with
  | ValueError msg =>
      str_startswith "Cannot create a numpy array with opaque elements of size " msg
  | _ => false
  end.

(** [MissingTypeTag]: an opaque value, or a name to resolve, with no torch
    dtype given. *)
Definition is_MissingTypeTag (e : exception) : bool :=
  match e with
  | ValueError msg =>
      String.eqb msg
        "Tried to decode a tensor stored as opaque data, but no torch dtype was specified"
      || String.eqb msg "Cannot decode an empty dtype."
  | _ => false
  end.

(** [InvalidDtypeName]: the name is malformed or names no dtype. *)
Definition is_InvalidDtypeName (e : exception) : bool :=
  match e with
  | ValueError msg => str_startswith "Invalid torch_dtype: " msg
  | _ => false
  end.

(** [UnrepresentableDtype]: an array dtype with no torch dtype. *)
Definition is_UnrepresentableDtype (e : exception) : bool :=
  match e with
  | TypeError msg => str_startswith "Cannot serialize an array with dtype " msg
  | _ => false
  end.

(** Whether [from_tensor] stores a tensor through its last block: the
    dtype is listed as asymmetric, or [tensor.numpy()] raised TypeError. *)
Definition takes_opaque_path (tensor : torch.Tensor) : bool :=
  _is_asymmetric (torch.tensor_dtype tensor)
  || match torch.numpy tensor with
     | Raise (TypeError _) => true
     | _ => false
     end.

(** A dtype that the round trip is specified for: torch converts it to
    numpy, or it is listed as asymmetric and is not unsupported. *)
Definition supported_dtype (d : torch.dtype) : Prop :=
  is_Some (torch.numpy_dtype_of d)
  ∨ (d ∈ _ASYMMETRIC_TYPES ∧ d ∉ _UNSUPPORTED_TYPES).

Definition bytes4 : list Byte.byte := [Byte.x01; Byte.x02; Byte.x03; Byte.x04].

(* ================================================================= *)
(** ** Evaluation on small inputs *)

Example from_tensor_bfloat16 :
  from_tensor (torch.mk_Tensor torch.bfloat16 [2] bytes4)
  = Return (cls (numpy.mk_ndarray (numpy.mk_dtype numpy.Kint 2 numpy.Little) [2] bytes4)
              "<V2" (torch.Str "torch.bfloat16")).
Proof. reflexivity. Qed.

Example from_tensor_float32 :
  from_tensor (torch.mk_Tensor torch.float32 [1] bytes4)
  = Return (cls (numpy.mk_ndarray (numpy.mk_dtype numpy.Kfloat 4 numpy.Little) [1] bytes4)
              "<f4" (torch.Str "torch.float32")).
Proof. reflexivity. Qed.

Example from_buffer_complex32 :
  (r ← from_buffer "<V4" (torch.Str "torch.complex32") [4]
         (bytes4 ++ bytes4 ++ bytes4 ++ bytes4) 0;
   to_tensor r)
  = Return (torch.mk_Tensor torch.complex32 [4]
              (bytes4 ++ bytes4 ++ bytes4 ++ bytes4)).
Proof. reflexivity. Qed.

Example str_replace_examples :
  str_replace "" "-" "abc" = "-a-b-c-"
  ∧ str_replace "ab" "X" "ababa" = "XXa"
  ∧ str_replace "aa" "b" "aaaaa" = "bba"
  ∧ str_split1 "." "torch.a.b" = ["torch"; "a.b"]
  ∧ str_split1 "." "torch" = ["torch"]
  ∧ str_split1 "." "" = [""].
Proof. repeat split; reflexivity. Qed.

(* ================================================================= *)
(** ** The tables *)

Ltac decide_elem := apply (bool_decide_unpack _); vm_compute; exact I.
Ltac refute_elem H := apply (bool_decide_pack _) in H; vm_compute in H; destruct H.

Lemma elem_of_UNSUPPORTED_TYPES (d : torch.dtype) :
  d ∈ _UNSUPPORTED_TYPES
  ↔ d ∈ [torch.quint8; torch.qint8; torch.qint32; torch.quint4x2; torch.quint2x4].
Proof.
  split; intros H; destruct d;
    solve [ decide_elem | refute_elem H ].
Qed.

Lemma elem_of_ASYMMETRIC_TYPES (d : torch.dtype) :
  d ∈ _ASYMMETRIC_TYPES
  ↔ d ∈ [torch.bfloat16; torch.quint8; torch.qint8; torch.qint32;
         torch.quint4x2; torch.quint2x4; torch.complex32].
Proof.
  split; intros H; destruct d;
    solve [ decide_elem | refute_elem H ].
Qed.

(** Every unsupported type is asymmetric. *)
Lemma UNSUPPORTED_subseteq_ASYMMETRIC : _UNSUPPORTED_TYPES ⊆ _ASYMMETRIC_TYPES.
Proof.
  intros d H. destruct d; solve [ decide_elem | refute_elem H ].
Qed.

Lemma intermediate_mapping_None (size : Z) :
  size ∉ [1; 2; 4; 8] → _INTERMEDIATE_MAPPING !! size = None.
Proof.
  intros H. unfold _INTERMEDIATE_MAPPING.
  rewrite !lookup_insert_ne, lookup_singleton_ne; [done | ..];
    intros Heq; apply H; rewrite <- Heq; set_solver.
Qed.

(* ================================================================= *)
(** ** Encoding: rejections *)

(** C3. A tensor whose dtype is in the unsupported set is refused by
    [from_tensor] with NotImplementedError (the UnsupportedDtype kind) at
    its first statement: nothing is encoded and no [_NumpyTensor] is
    returned. *)
Theorem from_tensor_unsupported (tensor : torch.Tensor) :
  torch.tensor_dtype tensor ∈ _UNSUPPORTED_TYPES →
  from_tensor tensor
  = Raise (NotImplementedError
             ("Serialization for " +:+ torch.str (torch.tensor_dtype tensor)
                +:+ " is not implemented."))
  ∧ (∀ e, from_tensor tensor = Raise e → is_UnsupportedDtype e = true)
  ∧ (∀ nt, from_tensor tensor ≠ Return nt).
Proof.
  intros H. unfold from_tensor.
  rewrite (bool_decide_eq_true_2 _ H).
  split; [reflexivity | split].
  - intros e [= <-]. reflexivity.
  - intros nt. discriminate.
Qed.

Lemma from_tensor_unsupported_witness :
  from_tensor (torch.mk_Tensor torch.quint8 [4] bytes4)
  = Raise (NotImplementedError "Serialization for torch.quint8 is not implemented.")
  ∧ (∀ e, from_tensor (torch.mk_Tensor torch.quint8 [4] bytes4) = Raise e →
          is_UnsupportedDtype e = true)
  ∧ (∀ nt, from_tensor (torch.mk_Tensor torch.quint8 [4] bytes4) ≠ Return nt).
Proof.
  apply (from_tensor_unsupported (torch.mk_Tensor torch.quint8 [4] bytes4)).
  apply (bool_decide_unpack _). vm_compute. exact I.
Defined.

(** C4. An element size outside {1, 2, 4, 8} has no integer stand-in:
    [_intermediate_type] raises ValueError (the UnrepresentableWidth kind)
    with a message fixed by the size, and so does the opaque block of
    [from_tensor] on every tensor with such an element size. *)
Theorem intermediate_type_rejects_width (size : Z) :
  size ∉ [1; 2; 4; 8] →
  let e := ValueError ("Cannot create a numpy array with opaque elements of size "
                         +:+ str_of_int size +:+ " bytes") in
  _intermediate_type size = Raise e
  ∧ is_UnrepresentableWidth e = true
  ∧ ∀ torch_dtype tensor,
      torch.element_size tensor = size →
      from_tensor_opaque torch_dtype tensor = Raise e.
Proof.
  intros H e.
  assert (Hi : _intermediate_type size = Raise e).
  { unfold _intermediate_type. by rewrite intermediate_mapping_None. }
  split; [exact Hi | split; [reflexivity |]].
  intros torch_dtype tensor Hsize. unfold from_tensor_opaque.
  rewrite Hsize, Hi. reflexivity.
Qed.

Lemma intermediate_type_rejects_width_witness :
  (_intermediate_type 3
   = Raise (ValueError "Cannot create a numpy array with opaque elements of size 3 bytes"))
  ∧ (_intermediate_type 16
     = Raise (ValueError "Cannot create a numpy array with opaque elements of size 16 bytes"))
  ∧ from_tensor_opaque "torch.complex128"
      (torch.mk_Tensor torch.complex128 [1] (bytes4 ++ bytes4 ++ bytes4 ++ bytes4))
    = Raise (ValueError "Cannot create a numpy array with opaque elements of size 16 bytes").
Proof.
  assert (H3 : (3 : Z) ∉ [1; 2; 4; 8]).
  { intros H. apply (bool_decide_pack _) in H. vm_compute in H. destruct H. }
  assert (H16 : (16 : Z) ∉ [1; 2; 4; 8]).
  { intros H. apply (bool_decide_pack _) in H. vm_compute in H. destruct H. }
  split; [| split].
  - exact (proj1 (intermediate_type_rejects_width 3 H3)).
  - exact (proj1 (intermediate_type_rejects_width 16 H16)).
  - apply (proj2 (proj2 (intermediate_type_rejects_width 16 H16))). reflexivity.
Defined.

(* ================================================================= *)
(** ** Round trip *)

Lemma supported_not_unsupported (d : torch.dtype) :
  supported_dtype d → d ∉ _UNSUPPORTED_TYPES.
Proof.
  intros [Hn | [_ Hu]]; [| exact Hu].
  intros H. destruct Hn as [nd Hn].
  destruct d; solve [ refute_elem H | discriminate Hn ].
Qed.

(** Decoding what [from_tensor] encoded gives the tensor back, for every
    dtype that [from_tensor] accepts. *)
Lemma from_tensor_to_tensor (tensor : torch.Tensor) :
  torch.tensor_dtype tensor ∉ _UNSUPPORTED_TYPES →
  from_tensor tensor ≫= to_tensor = Return tensor.
Proof.
  intros H. destruct tensor as [d shp st].
  destruct d;
    first [ vm_compute; reflexivity | exfalso; apply H; decide_elem ].
Qed.

Lemma from_tensor_returns (tensor : torch.Tensor) :
  torch.tensor_dtype tensor ∉ _UNSUPPORTED_TYPES →
  is_Return (from_tensor tensor) = true.
Proof.
  intros H. destruct tensor as [d shp st].
  destruct d;
    first [ vm_compute; reflexivity | exfalso; apply H; decide_elem ].
Qed.

(** C1. For a tensor of a supported dtype (one torch converts to numpy,
    or an asymmetric one that is not unsupported), [from_tensor] returns
    a [_NumpyTensor], and [to_tensor] of it returns a tensor with the same
    dtype, shape and bytes. *)
Theorem from_tensor_to_tensor_roundtrip (tensor : torch.Tensor) :
  supported_dtype (torch.tensor_dtype tensor) →
  ∃ nt t',
    from_tensor tensor = Return nt
    ∧ to_tensor nt = Return t'
    ∧ torch.tensor_dtype t' = torch.tensor_dtype tensor
    ∧ torch.size t' = torch.size tensor
    ∧ torch.storage t' = torch.storage tensor.
Proof.
  intros Hs. apply supported_not_unsupported in Hs.
  pose proof (from_tensor_to_tensor tensor Hs) as Hrt.
  pose proof (from_tensor_returns tensor Hs) as Hret.
  destruct (from_tensor tensor) as [nt | e]; [| discriminate].
  exists nt, tensor. repeat split. exact Hrt.
Qed.

Lemma from_tensor_to_tensor_roundtrip_witness :
  (∃ nt t',
      from_tensor (torch.mk_Tensor torch.float32 [1] bytes4) = Return nt
      ∧ to_tensor nt = Return t'
      ∧ torch.tensor_dtype t' = torch.float32
      ∧ torch.size t' = [1]
      ∧ torch.storage t' = bytes4)
  ∧ (∃ nt t',
      from_tensor (torch.mk_Tensor torch.bfloat16 [2] bytes4) = Return nt
      ∧ to_tensor nt = Return t'
      ∧ torch.tensor_dtype t' = torch.bfloat16
      ∧ torch.size t' = [2]
      ∧ torch.storage t' = bytes4).
Proof.
  split.
  - apply (from_tensor_to_tensor_roundtrip (torch.mk_Tensor torch.float32 [1] bytes4)).
    left. simpl. eexists. reflexivity.
  - apply (from_tensor_to_tensor_roundtrip (torch.mk_Tensor torch.bfloat16 [2] bytes4)).
    right. split.
    + apply (bool_decide_unpack _). vm_compute. exact I.
    + intros H. apply (bool_decide_pack _) in H. vm_compute in H. destruct H.
Defined.

(* ================================================================= *)
(** ** Encoding: the opaque path *)



(** C5. The dtype string of a [_NumpyTensor] that [from_tensor] returns is
    opaque exactly when the tensor went through the opaque block, and the
    dtype string that [from_array] records is never opaque. *)
Theorem is_opaque_iff_opaque_path :
  (∀ tensor nt,
      from_tensor tensor = Return nt →
      (takes_opaque_path tensor = true →
       from_tensor_opaque (torch.str (torch.tensor_dtype tensor)) tensor = Return nt)
      ∧ (takes_opaque_path tensor = false →
         ∃ arr, torch.numpy tensor = Return arr
                ∧ nt = cls arr (numpy.str (numpy.ndarray_dtype arr))
                         (torch.Str (torch.str (torch.tensor_dtype tensor))))
      ∧ is_opaque nt = Return (takes_opaque_path tensor))
  ∧ (∀ arr nt, from_array arr = Return nt → is_opaque nt = Return false).
Proof.
  split.
  - intros [d shp st] nt H.
    destruct d; vm_compute in H; try discriminate H;
      injection H as <-;
      (split;
       [ intros Hp; vm_compute in Hp; try discriminate Hp; vm_compute; reflexivity
       | split;
         [ intros Hp; vm_compute in Hp;
           first [ discriminate Hp
                 | eexists; split; [ vm_compute; reflexivity | reflexivity ] ]
         | vm_compute; reflexivity ] ]).
  - intros [[k n o] shp buf] nt H.
    destruct n as [| p]; [destruct o, k; vm_compute in H; discriminate H |].
    destruct o, k;
      repeat (destruct p as [p | p |]; try (vm_compute in H; discriminate H));
      vm_compute in H; injection H as <-; vm_compute; reflexivity.
Qed.

Lemma is_opaque_iff_opaque_path_witness :
  is_opaque (cls (numpy.mk_ndarray (numpy.mk_dtype numpy.Kint 2 numpy.Little) [2] bytes4)
               "<V2" (torch.Str "torch.bfloat16"))
  = Return (takes_opaque_path (torch.mk_Tensor torch.bfloat16 [2] bytes4))
  ∧ is_opaque (cls (numpy.mk_ndarray (numpy.mk_dtype numpy.Kfloat 4 numpy.Little) [1] bytes4)
                 "<f4" (torch.Str "torch.float32"))
    = Return (takes_opaque_path (torch.mk_Tensor torch.float32 [1] bytes4))
  ∧ is_opaque (cls (numpy.mk_ndarray (numpy.mk_dtype numpy.Kfloat 4 numpy.Little) [1] bytes4)
                 "<f4" (torch.Dtype torch.float32))
    = Return false.
Proof.
  split; [| split].
  - apply (proj1 is_opaque_iff_opaque_path
             (torch.mk_Tensor torch.bfloat16 [2] bytes4)).
    reflexivity.
  - apply (proj1 is_opaque_iff_opaque_path
             (torch.mk_Tensor torch.float32 [1] bytes4)).
    reflexivity.
  - apply (proj2 is_opaque_iff_opaque_path
             (numpy.mk_ndarray (numpy.mk_dtype numpy.Kfloat 4 numpy.Little) [1] bytes4)).
    reflexivity.
Defined.

(* ================================================================= *)
(** ** Decoding *)

Lemma from_numpy_error_kind (arr : numpy.ndarray) (e : exception) :
  torch.from_numpy arr = Raise e →
  is_MissingTypeTag e = false ∧ is_InvalidDtypeName e = false.
Proof.
  unfold torch.from_numpy.
  destruct (numpy.dtype_byteorder (numpy.ndarray_dtype arr));
    destruct (torch.dtype_of_numpy (numpy.ndarray_dtype arr));
    intros [= <-]; split; reflexivity.
Qed.

(** C10. When the dtype string is not opaque, [to_tensor] is
    [torch.from_numpy] of the data: the [torch_dtype] field is not read, so
    two values that differ only in it (None, empty, malformed, anything)
    decode alike, and no error of the MissingTypeTag or InvalidDtypeName
    kind can come out. *)
Theorem to_tensor_not_opaque_ignores_torch_dtype
    (arr : numpy.ndarray) (numpy_dtype : string) (td1 td2 : torch.object) :
  _is_opaque numpy_dtype = Return false →
  to_tensor (cls arr numpy_dtype td1) = torch.from_numpy arr
  ∧ to_tensor (cls arr numpy_dtype td1) = to_tensor (cls arr numpy_dtype td2)
  ∧ ∀ e, to_tensor (cls arr numpy_dtype td1) = Raise e →
         is_MissingTypeTag e = false ∧ is_InvalidDtypeName e = false.
Proof.
  intros H.
  assert (Hto : ∀ td, to_tensor (cls arr numpy_dtype td) = torch.from_numpy arr).
  { intros td. unfold to_tensor, is_opaque. simpl. rewrite H. reflexivity. }
  split; [apply Hto | split].
  - by rewrite !Hto.
  - intros e. rewrite Hto. apply from_numpy_error_kind.
Qed.

Lemma to_tensor_not_opaque_ignores_torch_dtype_witness :
  let arr := numpy.mk_ndarray (numpy.mk_dtype numpy.Kfloat 4 numpy.Little) [1] bytes4 in
  to_tensor (cls arr "<f4" torch.None_) = torch.from_numpy arr
  ∧ to_tensor (cls arr "<f4" torch.None_) = to_tensor (cls arr "<f4" (torch.Str "bogus"))
  ∧ ∀ e, to_tensor (cls arr "<f4" torch.None_) = Raise e →
         is_MissingTypeTag e = false ∧ is_InvalidDtypeName e = false.
Proof.
  intros arr.
  apply (to_tensor_not_opaque_ignores_torch_dtype arr "<f4" torch.None_ (torch.Str "bogus")).
  reflexivity.
Defined.

(** C8. A [_NumpyTensor] that [from_tensor] returns with an opaque dtype
    string carries a non-empty [torch_dtype] string; that string resolves
    to the tensor's dtype, whose element size is the item size written in
    the opaque dtype string.  And [to_tensor] of an opaque value whose
    [torch_dtype] is None or empty raises ValueError (the MissingTypeTag
    kind). *)
Theorem from_tensor_opaque_consistent :
  (∀ tensor nt,
      from_tensor tensor = Return nt →
      is_opaque nt = Return true →
      ∃ s d nd,
        torch_dtype nt = torch.Str s
        ∧ s ≠ ""
        ∧ _decode_torch_dtype nt = Return d
        ∧ d = torch.tensor_dtype tensor
        ∧ numpy.dtype_of_str (numpy_dtype nt) = Return nd
        ∧ numpy.type nd = numpy.void
        ∧ torch.dtype_itemsize d = Z.of_N (numpy.itemsize nd))
  ∧ (∀ nt,
      is_opaque nt = Return true →
      torch.truthy (torch_dtype nt) = false →
      to_tensor nt
      = Raise (ValueError
          "Tried to decode a tensor stored as opaque data, but no torch dtype was specified")
      ∧ ∀ e, to_tensor nt = Raise e → is_MissingTypeTag e = true).
Proof.
  split.
  - intros [d shp st] nt H Ho.
    destruct d; vm_compute in H; try discriminate H;
      injection H as <-; vm_compute in Ho; try discriminate Ho;
      eexists _, _, _;
      (split; [reflexivity |]);
      (split; [discriminate |]);
      (split; [vm_compute; reflexivity |]);
      (split; [reflexivity |]);
      (split; [vm_compute; reflexivity |]);
      split; reflexivity.
  - intros nt Ho Ht.
    assert (Hto : to_tensor nt
                  = Raise (ValueError
                      "Tried to decode a tensor stored as opaque data, but no torch dtype was specified")).
    { unfold to_tensor. rewrite Ho. simpl. rewrite Ht. reflexivity. }
    split; [exact Hto |].
    intros e. rewrite Hto. intros [= <-]. reflexivity.
Qed.

Lemma from_tensor_opaque_consistent_witness :
  let arr := numpy.mk_ndarray (numpy.mk_dtype numpy.Kint 4 numpy.Little) [1] bytes4 in
  (∃ s d nd,
      torch_dtype (cls arr "<V4" (torch.Str "torch.complex32")) = torch.Str s
      ∧ s ≠ ""
      ∧ _decode_torch_dtype (cls arr "<V4" (torch.Str "torch.complex32")) = Return d
      ∧ d = torch.complex32
      ∧ numpy.dtype_of_str "<V4" = Return nd
      ∧ numpy.type nd = numpy.void
      ∧ torch.dtype_itemsize d = Z.of_N (numpy.itemsize nd))
  ∧ to_tensor (cls arr "<V4" torch.None_)
    = Raise (ValueError
        "Tried to decode a tensor stored as opaque data, but no torch dtype was specified").
Proof.
  intros arr. split.
  - apply (proj1 from_tensor_opaque_consistent
             (torch.mk_Tensor torch.complex32 [1] bytes4)
             (cls arr "<V4" (torch.Str "torch.complex32")));
      reflexivity.
  - apply (proj2 from_tensor_opaque_consistent (cls arr "<V4" torch.None_));
      reflexivity.
Defined.

(* ================================================================= *)
(** ** Resolving dtype names *)

Lemma MissingTypeTag_not_InvalidDtypeName (e : exception) :
  is_MissingTypeTag e = true → is_InvalidDtypeName e = false.
Proof.
  destruct e as [msg | | | | |]; try discriminate.
  simpl. intros H. apply orb_true_iff in H.
  destruct H as [H | H]; apply String.eqb_eq in H; subst msg; reflexivity.
Qed.

(** C2. [_decode_torch_dtype] on the four names of the claim: "torch.int8"
    resolves to [torch.int8]; the empty name raises ValueError "Cannot
    decode an empty dtype." (MissingTypeTag); "bogus" raises ValueError
    "Invalid torch_dtype: bogus" (InvalidDtypeName); but for
    "torch.not_a_dtype", a name the torch module does not have, the
    [getattr] without a default raises AttributeError, which is not the
    InvalidDtypeName kind. *)
Theorem decode_torch_dtype_absent_name_raises_AttributeError
    (arr : numpy.ndarray) (numpy_dtype : string) :
  _decode_torch_dtype (cls arr numpy_dtype (torch.Str "torch.int8"))
  = Return torch.int8
  ∧ _decode_torch_dtype (cls arr numpy_dtype (torch.Str ""))
    = Raise (ValueError "Cannot decode an empty dtype.")
  ∧ is_MissingTypeTag (ValueError "Cannot decode an empty dtype.") = true
  ∧ _decode_torch_dtype (cls arr numpy_dtype (torch.Str "bogus"))
    = Raise (ValueError "Invalid torch_dtype: bogus")
  ∧ is_InvalidDtypeName (ValueError "Invalid torch_dtype: bogus") = true
  ∧ _decode_torch_dtype (cls arr numpy_dtype (torch.Str "torch.nn"))
    = Raise (ValueError "Invalid torch_dtype: torch.nn")
  ∧ _decode_torch_dtype (cls arr numpy_dtype (torch.Str "torch.not_a_dtype"))
    = Raise (AttributeError "module 'torch' has no attribute 'not_a_dtype'")
  ∧ is_InvalidDtypeName
      (AttributeError "module 'torch' has no attribute 'not_a_dtype'") = false.
Proof. repeat split; vm_compute; reflexivity. Qed.

(* ================================================================= *)
(** ** Encoding a numpy array *)

(** What [from_array] returns when it returns: the array itself, its
    [dtype.str], and in [torch_dtype] the dtype object that
    [torch.from_numpy] gave, never a string. *)
Lemma from_array_returns (arr : numpy.ndarray) (nt : _NumpyTensor) :
  from_array arr = Return nt →
  data nt = arr
  ∧ numpy_dtype nt = numpy.str (numpy.ndarray_dtype arr)
  ∧ ∃ d, torch.dtype_of_numpy (numpy.ndarray_dtype arr) = Some d
         ∧ torch_dtype nt = torch.Dtype d.
Proof.
  unfold from_array, torch.from_numpy. simpl.
  destruct (numpy.dtype_byteorder (numpy.ndarray_dtype arr));
    destruct (torch.dtype_of_numpy (numpy.ndarray_dtype arr)) as [d |];
    simpl; intros [= <-]; eauto.
Qed.

(** C7. [from_array] on a float32 array returns the array and its dtype
    string "<f4", but the [torch_dtype] it records is the object
    [torch.float32] itself, not the string "torch.float32" that
    [from_tensor] records for the same dtype; [_decode_torch_dtype] refuses
    that value with TypeError "torch_dtype must be a string.".  On an array
    of a dtype torch does not have, it raises TypeError naming the dtype. *)
Theorem from_array_records_dtype_object :
  let arr := numpy.mk_ndarray (numpy.mk_dtype numpy.Kfloat 4 numpy.Little) [1] bytes4 in
  from_array arr = Return (cls arr "<f4" (torch.Dtype torch.float32))
  ∧ (∀ nt s, from_array arr = Return nt → torch_dtype nt ≠ torch.Str s)
  ∧ (torch_dtype <$> option_of_result (from_tensor (torch.mk_Tensor torch.float32 [1] bytes4)))
    = Some (torch.Str "torch.float32")
  ∧ _decode_torch_dtype (cls arr "<f4" (torch.Dtype torch.float32))
    = Raise (TypeError "torch_dtype must be a string.")
  ∧ from_array (numpy.mk_ndarray (numpy.mk_dtype numpy.Kuint 2 numpy.Little) [1] [Byte.x00; Byte.x00])
    = Raise (TypeError "Cannot serialize an array with dtype uint16 as a _NumpyTensor.").
Proof.
  intros arr. split; [reflexivity | split; [| repeat split]].
  intros nt s H. apply from_array_returns in H.
  destruct H as (_ & _ & d & _ & ->). discriminate.
Qed.

(* ================================================================= *)
(** ** Dtype strings *)

Lemma str_replace_char_cons (c c' a : ascii) (s : string) :
  str_replace (String c "") (String c' "") (String a s)
  = String (if Ascii.eqb c a then c' else a)
      (str_replace (String c "") (String c' "") s).
Proof.
  unfold str_replace. simpl.
  destruct (Ascii.eqb c a); reflexivity.
Qed.

Lemma str_replace_char_absent (c c' : ascii) (s : string) :
  str_forallb (λ a, negb (Ascii.eqb c a)) s = true →
  str_replace (String c "") (String c' "") s = s.
Proof.
  induction s as [| a s IH]; [reflexivity |].
  intros H. cbn [str_forallb] in H. apply andb_true_iff in H. destruct H as [Ha Hs].
  rewrite str_replace_char_cons, IH by exact Hs.
  apply negb_true_iff in Ha. by rewrite Ha.
Qed.

Lemma uint_of_char_digit (a : ascii) (d : option uint) (u : uint) :
  uint_of_char a d = Some u → is_digit a = true ∧ is_Some d.
Proof.
  destruct d as [d |]; [| discriminate].
  destruct a as [[] [] [] [] [] [] [] []]; simpl; intros H;
    first [ discriminate H | split; [reflexivity | eauto] ].
Qed.

Lemma uint_of_string_digits (s : string) (u : uint) :
  NilEmpty.uint_of_string s = Some u → str_forallb is_digit s = true.
Proof.
  revert u. induction s as [| a s IH]; [reflexivity |].
  intros u H. simpl in H. apply uint_of_char_digit in H.
  destruct H as [Ha [u' Hu']]. simpl. rewrite Ha. simpl. eauto.
Qed.

Lemma string_of_uint_digits (u : uint) :
  str_forallb is_digit (NilEmpty.string_of_uint u) = true.
Proof. induction u; simpl; auto. Qed.

Lemma to_uint_nonnil (n : N) : N.to_uint n ≠ Nil.
Proof.
  destruct n as [| p]; [discriminate |].
  simpl. apply DecimalPos.Unsigned.to_uint_nonnil.
Qed.

Lemma str_of_N_digits (n : N) : str_forallb is_digit (numpy.str_of_N n) = true.
Proof.
  unfold numpy.str_of_N, NilZero.string_of_uint.
  destruct (N.to_uint n); try reflexivity; apply string_of_uint_digits.
Qed.

Lemma uint_of_string_str_of_N (n : N) :
  NilZero.uint_of_string (numpy.str_of_N n) = Some (N.to_uint n).
Proof. apply NilZero.usu, to_uint_nonnil. Qed.

Lemma NilZero_uint_of_string_digits (s : string) (u : uint) :
  NilZero.uint_of_string s = Some u → str_forallb is_digit s = true.
Proof.
  destruct s; [discriminate |]. apply uint_of_string_digits.
Qed.

Lemma digits_absent (c : ascii) (s : string) :
  is_digit c = false →
  str_forallb is_digit s = true →
  str_forallb (λ a, negb (Ascii.eqb c a)) s = true.
Proof.
  intros Hc. induction s as [| a s IH]; [reflexivity |].
  cbn [str_forallb]. intros H. apply andb_true_iff in H. destruct H as [Ha Hs].
  rewrite IH by exact Hs. rewrite andb_true_r.
  apply negb_true_iff. destruct (Ascii.eqb_spec c a) as [-> |]; congruence.
Qed.

Lemma kind_of_char_void (k : ascii) :
  numpy.kind_of_char k = Some numpy.Kvoid → k = "V"%char.
Proof.
  unfold numpy.kind_of_char.
  repeat (match goal with
          | |- context [Ascii.eqb k ?c] => destruct (Ascii.eqb_spec k c)
          end; try discriminate).
  done.
Qed.

Lemma byteorder_of_char_not_V (a : ascii) (o : numpy.byteorder) :
  numpy.byteorder_of_char a = Some o → Ascii.eqb "V" a = false.
Proof.
  unfold numpy.byteorder_of_char.
  repeat (match goal with
          | |- context [Ascii.eqb a ?c] => destruct (Ascii.eqb_spec a c); [subst a; reflexivity |]
          end).
  discriminate.
Qed.

Lemma byteorder_char_not_i (o : numpy.byteorder) :
  Ascii.eqb "i" (numpy.byteorder_char o) = false.
Proof. destruct o; reflexivity. Qed.

Lemma byteorder_of_char_char (o : numpy.byteorder) :
  is_Some (numpy.byteorder_of_char (numpy.byteorder_char o)).
Proof. destruct o; eexists; reflexivity. Qed.

Lemma type_make_void (k : numpy.kind) (n : N) (o : numpy.byteorder) :
  numpy.type (numpy.make k n o) = numpy.void → k = numpy.Kvoid.
Proof. destruct k; simpl; first [ discriminate | reflexivity ]. Qed.

(** A type string that parses to a raw-bytes dtype is "V" and the item
    size in decimal. *)
Lemma parse_kind_size_void (o : numpy.byteorder) (whole rest : string)
    (nd : numpy.dtype) :
  numpy.parse_kind_size o whole rest = Return nd →
  numpy.type nd = numpy.void →
  ∃ digits u,
    rest = String "V" digits
    ∧ NilZero.uint_of_string digits = Some u
    ∧ nd = numpy.make numpy.Kvoid (N.of_uint u) o.
Proof.
  unfold numpy.parse_kind_size, numpy.not_understood.
  destruct rest as [| k digits]; [discriminate |].
  destruct (numpy.kind_of_char k) as [kd |] eqn:Hk; [| discriminate].
  destruct (NilZero.uint_of_string digits) as [u |] eqn:Hu; [| discriminate].
  destruct (numpy.valid_itemsize kd (N.of_uint u)); [| discriminate].
  intros [= <-] Hv. apply type_make_void in Hv. subst kd.
  apply kind_of_char_void in Hk. subst k. eauto.
Qed.

Lemma parse_kind_size_digits (o : numpy.byteorder) (whole : string)
    (k : numpy.kind) (n : N) :
  numpy.valid_itemsize k n = true →
  numpy.parse_kind_size o whole (String (numpy.kind_char k) (numpy.str_of_N n))
  = Return (numpy.make k n o).
Proof.
  intros Hv. unfold numpy.parse_kind_size.
  assert (Hk : numpy.kind_of_char (numpy.kind_char k) = Some k) by (by destruct k).
  rewrite Hk, uint_of_string_str_of_N, Unsigned.of_to, Hv. reflexivity.
Qed.

Lemma parse_void (o : numpy.byteorder) (whole : string) (n : N) :
  numpy.parse_kind_size o whole (String "V" (numpy.str_of_N n))
  = Return (numpy.make numpy.Kvoid n o).
Proof. exact (parse_kind_size_digits o whole numpy.Kvoid n eq_refl). Qed.

Lemma is_opaque_void_str (o : numpy.byteorder) (n : N) :
  _is_opaque (String (numpy.byteorder_char o) (String "V" (numpy.str_of_N n)))
  = Return true.
Proof.
  unfold _is_opaque, numpy.dtype_of_str.
  destruct o; cbn [numpy.byteorder_char numpy.byteorder_of_char Ascii.eqb Bool.eqb];
    rewrite parse_void; reflexivity.
Qed.



(* ================================================================= *)
(** ** Further properties of the class

    The resolver on every name, the buffer constructor, the errors of the
    encoders, and how the encoders and decoders compose. *)

Lemma str_app_cons (a : ascii) (s t : string) :
  String a s +:+ t = String a (s +:+ t).
Proof. reflexivity. Qed.

Lemma str_startswith_drop (p s : string) :
  str_startswith p s = true → s = p +:+ str_drop (String.length p) s.
Proof.
  revert s. induction p as [| a p IH]; intros s H; [reflexivity |].
  destruct s as [| b s]; [discriminate H |].
  cbn [str_startswith] in H. apply andb_true_iff in H. destruct H as [Hab Hp].
  apply Ascii.eqb_eq in Hab. subst b.
  rewrite str_app_cons. cbn [String.length str_drop]. f_equal. by apply IH.
Qed.

Lemma str_partition_app (sep s before after : string) :
  str_partition sep s = Some (before, after) →
  s = before +:+ sep +:+ after.
Proof.
  revert before. induction s as [| a s IH]; intros before H; [discriminate H |].
  cbn [str_partition] in H.
  destruct (str_startswith sep (String a s)) eqn:Hs.
  - injection H as <- <-. by apply str_startswith_drop.
  - destruct (str_partition sep s) as [[b c] |]; [| discriminate H].
    injection H as <- <-. rewrite str_app_cons. f_equal. by apply IH.
Qed.

Lemma str_startswith_app (p s : string) : str_startswith p (p +:+ s) = true.
Proof.
  induction p as [| a p IH]; [reflexivity |].
  rewrite str_app_cons. cbn [str_startswith]. by rewrite Ascii.eqb_refl, IH.
Qed.

Lemma DECODE_MAPPING_lookup (s : string) (d : torch.dtype) :
  _DECODE_MAPPING !! s = Some d ↔ d ∈ _ASYMMETRIC_TYPES ∧ s = torch.str d.
Proof.
  unfold _DECODE_MAPPING.
  rewrite <- elem_of_list_to_map.
  - rewrite list_elem_of_fmap. setoid_rewrite elem_of_elements.
    split.
    + intros (t & [= -> ->] & Ht). split; [exact Ht | reflexivity].
    + intros [Hd ->]. eauto.
  - apply (bool_decide_unpack _). vm_compute. exact I.
Qed.

Lemma namespace_dtype_name (d : torch.dtype) :
  torch.namespace !! torch.dtype_name d = Some (torch.Dtype d).
Proof. destruct d; vm_compute; reflexivity. Qed.

Lemma str_split1_torch (n : string) :
  str_split1 "." ("torch." +:+ n) = ["torch"; n].
Proof. reflexivity. Qed.

(** X1. The name that [from_tensor] records for a dtype, [str(dtype)],
    resolves back to that dtype, for every torch dtype. *)
Theorem decode_torch_dtype_resolves_str
    (arr : numpy.ndarray) (numpy_dtype : string) (d : torch.dtype) :
  _decode_torch_dtype (cls arr numpy_dtype (torch.Str (torch.str d))) = Return d.
Proof. destruct d; vm_compute; reflexivity. Qed.


(** X3. A non-empty name that does not start with "torch." is refused with
    ValueError "Invalid torch_dtype: <name>". *)
Theorem decode_torch_dtype_wrong_namespace
    (arr : numpy.ndarray) (numpy_dtype : string) (s : string) :
  s ≠ "" →
  str_startswith "torch." s = false →
  _decode_torch_dtype (cls arr numpy_dtype (torch.Str s))
  = Raise (ValueError ("Invalid torch_dtype: " +:+ s)).
Proof.
  intros Hne Hp. unfold _decode_torch_dtype. cbn [torch_dtype dict_get].
  destruct (_DECODE_MAPPING !! s) as [d |] eqn:Hq.
  { apply DECODE_MAPPING_lookup in Hq. destruct Hq as [_ ->].
    unfold torch.str in Hp. by rewrite str_startswith_app in Hp. }
  assert (Ht : torch.truthy (torch.Str s) = true).
  { destruct s; [destruct Hne |]; reflexivity. }
  rewrite Ht. cbn [negb]. unfold str_split1.
  destruct (str_partition "." s) as [[before after] |] eqn:Hs.
  - destruct (String.eqb_spec before "torch") as [-> | Hb]; [| reflexivity].
    apply str_partition_app in Hs. subst s.
    change ("torch" +:+ "." +:+ after) with ("torch." +:+ after) in Hp.
    by rewrite str_startswith_app in Hp.
  - cbn [length Nat.eqb negb]. rewrite orb_true_r. reflexivity.
Qed.

Lemma parse_int_digits (o : numpy.byteorder) (whole digits : string) (u : uint) :
  NilZero.uint_of_string digits = Some u →
  numpy.parse_kind_size o whole (String "i" digits)
  = if numpy.valid_itemsize numpy.Kint (N.of_uint u)
    then Return (numpy.make numpy.Kint (N.of_uint u) o)
    else numpy.not_understood whole.
Proof.
  intros Hu. unfold numpy.parse_kind_size.
  cbn [numpy.kind_of_char Ascii.eqb Bool.eqb]. by rewrite Hu.
Qed.

(** What [_decoder_dtype] makes of an opaque dtype string: a string that
    numpy reads as the integer dtype of the same item size and byte order,
    or does not understand when it has no integer of that size. *)
Lemma decoder_dtype_opaque_inv (s : string) :
  _is_opaque s = Return true →
  ∃ n o s',
    numpy.dtype_of_str s = Return (numpy.make numpy.Kvoid n o)
    ∧ _decoder_dtype s = Return s'
    ∧ numpy.dtype_of_str s'
      = if numpy.valid_itemsize numpy.Kint n
        then Return (numpy.make numpy.Kint n o)
        else numpy.not_understood s'.
Proof.
  intros H.
  assert (Hdec : _decoder_dtype s = Return (str_replace "V" "i" s)).
  { unfold _decoder_dtype. rewrite H. reflexivity. }
  rewrite Hdec. unfold _is_opaque in H.
  destruct (numpy.dtype_of_str s) as [nd | e] eqn:Hd; [| discriminate H].
  injection H as H. apply bool_decide_eq_true in H.
  unfold numpy.dtype_of_str in Hd.
  destruct s as [| a rest]; [discriminate Hd |].
  destruct (numpy.byteorder_of_char a) as [o |] eqn:Ho.
  - apply parse_kind_size_void in Hd; [| exact H].
    destruct Hd as (digits & u & -> & Hu & ->).
    exists (N.of_uint u), o, (String a (String "i" digits)).
    split; [reflexivity |]. split.
    + rewrite !str_replace_char_cons, (byteorder_of_char_not_V _ _ Ho).
      rewrite str_replace_char_absent; [reflexivity |].
      apply digits_absent; [reflexivity |].
      by apply NilZero_uint_of_string_digits in Hu.
    + unfold numpy.dtype_of_str. rewrite Ho. by apply parse_int_digits.
  - apply parse_kind_size_void in Hd; [| exact H].
    destruct Hd as (digits & u & [= -> ->] & Hu & ->).
    exists (N.of_uint u), numpy.native, (String "i" digits).
    split; [reflexivity |]. split.
    + rewrite !str_replace_char_cons.
      rewrite str_replace_char_absent; [reflexivity |].
      apply digits_absent; [reflexivity |].
      by apply NilZero_uint_of_string_digits in Hu.
    + unfold numpy.dtype_of_str.
      cbn [numpy.byteorder_of_char Ascii.eqb Bool.eqb].
      by apply parse_int_digits.
Qed.

Lemma is_opaque_Return (s : string) (b : bool) :
  _is_opaque s = Return b →
  ∃ nd, numpy.dtype_of_str s = Return nd
        ∧ b = bool_decide (numpy.type nd = numpy.void).
Proof.
  unfold _is_opaque.
  destruct (numpy.dtype_of_str s) as [nd | e]; [| discriminate].
  intros [= <-]. eauto.
Qed.

Lemma type_make_int (n : N) (o : numpy.byteorder) :
  numpy.type (numpy.make numpy.Kint n o) ≠ numpy.void.
Proof. discriminate. Qed.


Lemma ndarray_new_Return (shp : list Z) (d : numpy.dtype)
    (buf : list Byte.byte) (offset : Z) (a : numpy.ndarray) :
  numpy.ndarray_new shp d buf offset = Return a →
  numpy.ndarray_dtype a = d ∧ numpy.shape a = shp.
Proof.
  unfold numpy.ndarray_new.
  repeat match goal with |- context [if ?b then _ else _] => destruct b end;
    intros [= <-]; done.
Qed.



Lemma ndarray_new_slice (shp : list Z) (d : numpy.dtype)
    (pre st post : list Byte.byte) :
  Forall (λ n, 0 ≤ n) shp →
  Z.of_nat (length st) = foldr Z.mul 1 shp * Z.of_N (numpy.itemsize d) →
  numpy.ndarray_new shp d (pre ++ st ++ post) (Z.of_nat (length pre))
  = Return (numpy.mk_ndarray d shp st).
Proof.
  intros Hshp Hlen. unfold numpy.ndarray_new.
  assert (Hex : existsb (λ n, n <? 0) shp = false).
  { clear Hlen. induction Hshp as [| n shp Hn _ IH]; [reflexivity |].
    cbn [existsb]. rewrite IH, orb_false_r. by apply Z.ltb_ge. }
  rewrite Hex, !length_app, <- Hlen.
  assert (H1 : (Z.of_nat (length pre) <? 0) = false) by (apply Z.ltb_ge; lia).
  assert (H2 : (Z.of_nat (length pre + (length st + length post))
                <? Z.of_nat (length pre)) = false) by (apply Z.ltb_ge; lia).
  assert (H3 : (Z.of_nat (length pre + (length st + length post))
                - Z.of_nat (length pre) <? Z.of_nat (length st)) = false)
    by (apply Z.ltb_ge; lia).
  rewrite H1, H2, H3. cbn [orb].
  rewrite !Nat2Z.id, drop_app_length, take_app_length. reflexivity.
Qed.

Lemma from_buffer_slice (np_tag ds : string) (torch_tag : torch.object)
    (d : numpy.dtype) (shp : list Z) (pre st post : list Byte.byte) :
  _decoder_dtype np_tag = Return ds →
  numpy.dtype_of_str ds = Return d →
  Forall (λ n, 0 ≤ n) shp →
  Z.of_nat (length st) = foldr Z.mul 1 shp * Z.of_N (numpy.itemsize d) →
  from_buffer np_tag torch_tag shp (pre ++ st ++ post) (Z.of_nat (length pre))
  = Return (cls (numpy.mk_ndarray d shp st) np_tag torch_tag).
Proof.
  intros Hds Hd Hshp Hlen. unfold from_buffer.
  rewrite Hds. cbn [mbind result_bind]. rewrite Hd. cbn [mbind result_bind].
  by rewrite ndarray_new_slice.
Qed.

(** X7. Serialization round trip.  Take what [from_tensor] returns for a
    tensor whose storage holds exactly its elements, put the bytes of its
    array anywhere in a buffer, and read them back with [from_buffer] at
    that offset with the recorded tags and the tensor's shape: [to_tensor]
    then returns the tensor. *)
Theorem from_tensor_from_buffer_to_tensor
    (tensor : torch.Tensor) (nt : _NumpyTensor) (pre post : list Byte.byte) :
  from_tensor tensor = Return nt →
  Forall (λ n, 0 ≤ n) (torch.size tensor) →
  Z.of_nat (length (torch.storage tensor))
  = foldr Z.mul 1 (torch.size tensor) * torch.element_size tensor →
  from_buffer (numpy_dtype nt) (torch_dtype nt) (torch.size tensor)
    (pre ++ numpy.buffer (data nt) ++ post) (Z.of_nat (length pre))
  ≫= to_tensor
  = Return tensor.
Proof.
  intros H Hshp Hlen. destruct tensor as [d shp st].
  cbn [torch.size torch.storage] in *.
  destruct d; vm_compute in H; try discriminate H; injection H as <-;
    cbn [numpy_dtype torch_dtype data numpy.buffer];
    (erewrite from_buffer_slice;
     [ | vm_compute; reflexivity | vm_compute; reflexivity
       | exact Hshp | exact Hlen ]);
    vm_compute; reflexivity.
Qed.

(** X8. When [_intermediate_type] returns, the size is 1, 2, 4 or 8 and
    the dtype is the integer dtype of that element size, one that
    [tensor.numpy()] converts and that is not listed as asymmetric. *)
Theorem intermediate_type_returns (size : Z) (d : torch.dtype) :
  _intermediate_type size = Return d →
  size ∈ [1; 2; 4; 8]
  ∧ torch.dtype_itemsize d = size
  ∧ torch.numpy_dtype_of d
    = Some (numpy.make numpy.Kint (Z.to_N size) numpy.native)
  ∧ d ∉ _ASYMMETRIC_TYPES.
Proof.
  intros H.
  destruct (decide (size ∈ [1; 2; 4; 8])) as [Hin | Hout].
  - split; [exact Hin |].
    repeat (apply elem_of_cons in Hin; destruct Hin as [-> | Hin]);
      [ .. | by apply elem_of_nil in Hin ];
      vm_compute in H; injection H as <-;
      (split; [reflexivity | split; [reflexivity |]]);
      intros Ha; refute_elem Ha.
  - unfold _intermediate_type in H.
    rewrite intermediate_mapping_None in H by exact Hout. discriminate H.
Qed.

(** X9. What [from_tensor] returns has the shape and the bytes of the
    tensor, the tensor's [str(dtype)] as [torch_dtype], an array that is
    never of the raw-bytes dtype and has the tensor's element size, and a
    [numpy_dtype] tag that [_decoder_dtype] turns into the dtype string of
    that array. *)
Theorem from_tensor_keeps_layout (tensor : torch.Tensor) (nt : _NumpyTensor) :
  from_tensor tensor = Return nt →
  numpy.shape (data nt) = torch.size tensor
  ∧ numpy.buffer (data nt) = torch.storage tensor
  ∧ torch_dtype nt = torch.Str (torch.str (torch.tensor_dtype tensor))
  ∧ Z.of_N (numpy.itemsize (numpy.ndarray_dtype (data nt)))
    = torch.element_size tensor
  ∧ numpy.type (numpy.ndarray_dtype (data nt)) ≠ numpy.void
  ∧ _decoder_dtype (numpy_dtype nt)
    = Return (numpy.str (numpy.ndarray_dtype (data nt))).
Proof.
  intros H. destruct tensor as [d shp st].
  destruct d; vm_compute in H; try discriminate H; injection H as <-;
    repeat split; try discriminate.
Qed.

(** X10. [from_tensor] raises only for the unsupported dtypes, and then
    the NotImplementedError of its first statement: no torch dtype gets as
    far as an element size without an integer stand-in. *)
Theorem from_tensor_raises_only_unsupported
    (tensor : torch.Tensor) (e : exception) :
  from_tensor tensor = Raise e →
  torch.tensor_dtype tensor ∈ _UNSUPPORTED_TYPES
  ∧ e = NotImplementedError
          ("Serialization for " +:+ torch.str (torch.tensor_dtype tensor)
             +:+ " is not implemented.").
Proof.
  intros H. destruct tensor as [d shp st].
  destruct d; vm_compute in H; try discriminate H; injection H as <-;
    (split; [decide_elem | reflexivity]).
Qed.


(** X12. The errors of [from_array]: a TypeError of the probe conversion
    is replaced by TypeError "Cannot serialize an array with dtype <name>
    as a _NumpyTensor."; any other error of the probe comes out as it is. *)
Theorem from_array_raises (arr : numpy.ndarray) (e : exception) :
  from_array arr = Raise e →
  let probe := torch.from_numpy (numpy.empty [] (numpy.ndarray_dtype arr)) in
  match e with
  | TypeError msg =>
      msg = "Cannot serialize an array with dtype "
              +:+ numpy.name (numpy.ndarray_dtype arr) +:+ " as a _NumpyTensor."
      ∧ ∃ msg', probe = Raise (TypeError msg')
  | _ => probe = Raise e
  end.
Proof.
  unfold from_array.
  destruct (torch.from_numpy (numpy.empty [] (numpy.ndarray_dtype arr)))
    as [t | e'].
  - discriminate.
  - cbn [mbind result_bind].
    destruct e'; intros [= <-]; cbn zeta; eauto.
Qed.

Lemma from_numpy_Return (arr : numpy.ndarray) (t : torch.Tensor) :
  torch.from_numpy arr = Return t →
  torch.dtype_of_numpy (numpy.ndarray_dtype arr) = Some (torch.tensor_dtype t)
  ∧ torch.size t = numpy.shape arr
  ∧ torch.storage t = numpy.buffer arr.
Proof.
  unfold torch.from_numpy.
  destruct (numpy.dtype_byteorder (numpy.ndarray_dtype arr));
    destruct (torch.dtype_of_numpy (numpy.ndarray_dtype arr));
    intros [= <-]; done.
Qed.

Lemma view_Return (t t' : torch.Tensor) (d : torch.dtype) :
  torch.view t d = Return t' →
  torch.tensor_dtype t' = d ∧ torch.storage t' = torch.storage t.
Proof.
  unfold torch.view.
  destruct (_ =? _); [intros [= <-]; done |].
  destruct (reverse (torch.size t)); [discriminate |].
  destruct (_ <? _); [intros [= <-]; done |].
  destruct (_ =? _); [intros [= <-]; done | discriminate].
Qed.

(** X13. The tensor [to_tensor] returns is over the bytes of the array.
    On the non-opaque path it has the array's shape and the torch dtype of
    the array's dtype; on the opaque path [torch_dtype] is non-empty and
    the tensor has the dtype it resolves to. *)
Theorem to_tensor_keeps_bytes (self : _NumpyTensor) (t : torch.Tensor) :
  to_tensor self = Return t →
  torch.storage t = numpy.buffer (data self)
  ∧ ((is_opaque self = Return false
      ∧ torch.size t = numpy.shape (data self)
      ∧ torch.dtype_of_numpy (numpy.ndarray_dtype (data self))
        = Some (torch.tensor_dtype t))
     ∨ (is_opaque self = Return true
        ∧ torch.truthy (torch_dtype self) = true
        ∧ _decode_torch_dtype self = Return (torch.tensor_dtype t))).
Proof.
  unfold to_tensor.
  destruct (is_opaque self) as [[] | e]; cbn [mbind result_bind negb];
    [| | discriminate].
  - destruct (torch.truthy (torch_dtype self)); cbn [negb]; [| discriminate].
    destruct (torch.from_numpy (data self)) as [tv |] eqn:Hn; [| discriminate].
    cbn [mbind result_bind].
    destruct (_decode_torch_dtype self) as [d |]; [| discriminate].
    cbn [mbind result_bind]. intros Hv.
    apply view_Return in Hv. destruct Hv as [<- ->].
    apply from_numpy_Return in Hn. destruct Hn as (_ & _ & ->).
    split; [reflexivity | right; done].
  - intros Hn. apply from_numpy_Return in Hn. destruct Hn as (Hd & Hs & ->).
    split; [reflexivity | left; done].
Qed.


(** X15. The type tables agree with each other and with torch: every
    unsupported dtype is asymmetric, and every asymmetric dtype has no
    numpy dtype in torch and has an integer stand-in of its element
    size. *)
Theorem type_tables_consistent (d : torch.dtype) :
  (d ∈ _UNSUPPORTED_TYPES → d ∈ _ASYMMETRIC_TYPES)
  ∧ (d ∈ _ASYMMETRIC_TYPES →
     torch.numpy_dtype_of d = None
     ∧ is_Return (_intermediate_type (torch.dtype_itemsize d)) = true).
Proof.
  split.
  - apply UNSUPPORTED_subseteq_ASYMMETRIC.
  - intros H. destruct d;
      solve [ split; vm_compute; reflexivity | refute_elem H ].
Qed.

(* ----------------------------------------------------------------- *)
(** *** The properties above on concrete inputs *)

Lemma decode_torch_dtype_wrong_namespace_witness :
  _decode_torch_dtype
    (cls (numpy.mk_ndarray (numpy.mk_dtype numpy.Kint 1 numpy.NotApplicable) [4] bytes4)
       "|V1" (torch.Str "numpy.int8"))
  = Raise (ValueError "Invalid torch_dtype: numpy.int8").
Proof.
  apply (decode_torch_dtype_wrong_namespace _ "|V1" "numpy.int8").
  - discriminate.
  - reflexivity.
Defined.




Lemma from_tensor_from_buffer_to_tensor_witness :
  from_buffer "<V2" (torch.Str "torch.bfloat16") [2]
    ([Byte.x00] ++ bytes4 ++ [Byte.xff]) 1
  ≫= to_tensor
  = Return (torch.mk_Tensor torch.bfloat16 [2] bytes4).
Proof.
  apply (from_tensor_from_buffer_to_tensor
           (torch.mk_Tensor torch.bfloat16 [2] bytes4)
           (cls (numpy.mk_ndarray (numpy.mk_dtype numpy.Kint 2 numpy.Little) [2] bytes4)
              "<V2" (torch.Str "torch.bfloat16"))
           [Byte.x00] [Byte.xff]).
  - reflexivity.
  - repeat constructor; discriminate.
  - reflexivity.
Defined.

Lemma intermediate_type_returns_witness :
  (2 : Z) ∈ [1; 2; 4; 8]
  ∧ torch.dtype_itemsize torch.int16 = 2
  ∧ torch.numpy_dtype_of torch.int16
    = Some (numpy.make numpy.Kint (Z.to_N 2) numpy.native)
  ∧ torch.int16 ∉ _ASYMMETRIC_TYPES.
Proof.
  apply (intermediate_type_returns 2 torch.int16). reflexivity.
Defined.

Lemma from_tensor_keeps_layout_witness :
  let nt := cls (numpy.mk_ndarray (numpy.mk_dtype numpy.Kint 4 numpy.Little) [1] bytes4)
              "<V4" (torch.Str "torch.complex32") in
  numpy.shape (data nt) = [1]
  ∧ numpy.buffer (data nt) = bytes4
  ∧ torch_dtype nt = torch.Str "torch.complex32"
  ∧ Z.of_N (numpy.itemsize (numpy.ndarray_dtype (data nt))) = 4
  ∧ numpy.type (numpy.ndarray_dtype (data nt)) ≠ numpy.void
  ∧ _decoder_dtype (numpy_dtype nt) = Return "<i4".
Proof.
  intros nt.
  apply (from_tensor_keeps_layout (torch.mk_Tensor torch.complex32 [1] bytes4) nt).
  reflexivity.
Defined.

Lemma from_tensor_raises_only_unsupported_witness :
  torch.qint32 ∈ _UNSUPPORTED_TYPES
  ∧ NotImplementedError "Serialization for torch.qint32 is not implemented."
    = NotImplementedError "Serialization for torch.qint32 is not implemented.".
Proof.
  apply (from_tensor_raises_only_unsupported
           (torch.mk_Tensor torch.qint32 [1] bytes4)).
  reflexivity.
Defined.


Lemma from_array_raises_witness :
  let arr := numpy.mk_ndarray (numpy.mk_dtype numpy.Kuint 2 numpy.Little) [1]
               [Byte.x00; Byte.x00] in
  "Cannot serialize an array with dtype uint16 as a _NumpyTensor."
  = "Cannot serialize an array with dtype "
      +:+ numpy.name (numpy.ndarray_dtype arr) +:+ " as a _NumpyTensor."
  ∧ ∃ msg',
      torch.from_numpy (numpy.empty [] (numpy.ndarray_dtype arr))
      = Raise (TypeError msg').
Proof.
  intros arr.
  apply (from_array_raises arr
           (TypeError "Cannot serialize an array with dtype uint16 as a _NumpyTensor.")).
  reflexivity.
Defined.

Lemma to_tensor_keeps_bytes_witness :
  let self := cls (numpy.mk_ndarray (numpy.mk_dtype numpy.Kint 2 numpy.Little) [2] bytes4)
                "<V2" (torch.Str "torch.bfloat16") in
  let t := torch.mk_Tensor torch.bfloat16 [2] bytes4 in
  torch.storage t = numpy.buffer (data self)
  ∧ ((is_opaque self = Return false
      ∧ torch.size t = numpy.shape (data self)
      ∧ torch.dtype_of_numpy (numpy.ndarray_dtype (data self))
        = Some (torch.tensor_dtype t))
     ∨ (is_opaque self = Return true
        ∧ torch.truthy (torch_dtype self) = true
        ∧ _decode_torch_dtype self = Return (torch.tensor_dtype t))).
Proof.
  intros self t. apply (to_tensor_keeps_bytes self t). reflexivity.
Defined.


Lemma type_tables_consistent_witness :
  torch.qint8 ∈ _ASYMMETRIC_TYPES
  ∧ torch.numpy_dtype_of torch.bfloat16 = None
  ∧ is_Return (_intermediate_type (torch.dtype_itemsize torch.bfloat16)) = true.
Proof.
  split.
  - apply (proj1 (type_tables_consistent torch.qint8)).
    apply (bool_decide_unpack _). vm_compute. exact I.
  - apply (proj2 (type_tables_consistent torch.bfloat16)).
    apply (bool_decide_unpack _). vm_compute. exact I.
Defined.
